(** * FarmBeats dashboard: weather impact resolver and 24-hour energy profile

    A shallow embedding of the two pieces of [main.py] that compute
    something: [get_weather_impact] (lines 63-70) and the energy list built
    inside [show_dashboard] (lines 103-107), followed by the properties the
    specification states about them.

    Python numbers are kept as the interpreter has them: [int] is [Z], and
    [float] is the kernel's binary64 [float], so every arithmetic step below
    rounds exactly where CPython would. *)

From Stdlib Require Import ZArith QArith List String Bool Floats Lia.
From Stdlib Require Import DecimalString.
Import ListNotations.

Local Open Scope string_scope.
Local Open Scope Z_scope.

(** ** Python values and arithmetic *)

Module Py.

(** The numbers that occur in the energy list: [50 + x * 2] stays an
    [int], [74 - x * 0.5] and [60 - x * 1.5] are [float]s. *)
Inductive num : Type :=
| Int (z : Z)
| Float (f : float).

(** The builtin scalars a caller can hand to [get_weather_impact]. *)
Inductive value : Type :=
| VNone
| VBool (b : bool)
| VNum (n : num)
| VStr (s : string).

(** [v == lit] for a [str] literal [lit]: only a string with the same
    characters compares equal; for the other builtin scalars [==] answers
    [False] and never raises. *)
Definition eq_str (v : value) (lit : string) : bool :=
  match v with
  | VStr s => String.eqb s lit
  | _ => false
  end.

(** [float(z)]: exact whenever [|z| <= 2^53], which covers every integer
    this program converts (0..74). *)
Definition float_of_int (z : Z) : float :=
  if z <? 0 then PrimFloat.opp (PrimFloat.of_uint63 (Uint63.of_Z (- z)))
  else PrimFloat.of_uint63 (Uint63.of_Z z).

Definition to_float (n : num) : float :=
  match n with
  | Int z => float_of_int z
  | Float f => f
  end.

(** Binary arithmetic with Python's coercion: two [int]s give an [int],
    anything else is computed in binary64. *)
Definition arith (iop : Z -> Z -> Z) (fop : float -> float -> float)
           (a b : num) : num :=
  match a, b with
  | Int x, Int y => Int (iop x y)
  | _, _ => Float (fop (to_float a) (to_float b))
  end.

Definition add : num -> num -> num := arith Z.add PrimFloat.add.
Definition sub : num -> num -> num := arith Z.sub PrimFloat.sub.
Definition mul : num -> num -> num := arith Z.mul PrimFloat.mul.

(** The rational a finite binary64 value denotes; [None] for an infinity
    or a NaN. *)
Definition float_value (f : float) : option Q :=
  match Prim2SF f with
  | S754_zero _ => Some 0%Q
  | S754_finite s m e =>
      let mag :=
        if 0 <=? e then inject_Z (Z.pos m * 2 ^ e)
        else Qmake (Z.pos m) (Pos.pow 2 (Z.to_pos (- e))) in
      Some (if s then Qopp mag else mag)
  | S754_infinity _ | S754_nan => None
  end.

Definition num_value (n : num) : option Q :=
  match n with
  | Int z => Some (inject_Z z)
  | Float f => float_value f
  end.

(** [a == b] on numbers.  Python compares an [int] with a [float] by their
    exact values, without rounding the [int]. *)
Definition num_eqb (a b : num) : bool :=
  match a, b with
  | Int x, Int y => x =? y
  | Float f, Float g => PrimFloat.eqb f g
  | _, _ =>
      match num_value a, num_value b with
      | Some p, Some q => Qeq_bool p q
      | _, _ => false
      end
  end.

(** [list(range(n))]. *)
Definition range (n : nat) : list Z := map Z.of_nat (seq 0 n).

(** [l[i]]: a negative index counts from the end, anything out of range is
    an [IndexError] ([None]). *)
Definition item {A : Type} (l : list A) (i : Z) : option A :=
  let len := Z.of_nat (List.length l) in
  if (0 <=? i) && (i <? len) then nth_error l (Z.to_nat i)
  else if (- len <=? i) && (i <? 0) then nth_error l (Z.to_nat (len + i))
  else None.

(** What a call does: it returns a value or raises an exception, named by
    its class. *)
Inductive outcome (A : Type) : Type :=
| Returns (a : A)
| Raises (exn : string).
Arguments Returns {A} a.
Arguments Raises {A} exn.

End Py.

Import Py.

(** ** The program *)

(** [get_weather_impact] (lines 63-70): two string comparisons and a
    catch-all [else]. *)
Definition get_weather_impact (weather : value) : Z * string * string :=
  if eq_str weather "Sunny" then
    (94, "200Wh/day", "Normal")
  else if eq_str weather "Cloudy" then
    (65, "140Wh/day", "Conservation Mode")
  else (* Storm *)
    (28, "10Wh/day", "Deep Sleep").

(** A call of [get_weather_impact]: the body holds no [raise] and [==]
    against a [str] literal does not raise on a builtin scalar, so every
    call ends in [return]. *)
Definition call_get_weather_impact (weather : value)
  : outcome (Z * string * string) :=
  Returns (get_weather_impact weather).

(** The options of the "Simulate Weather Condition" select box (line 79). *)
Definition weather_options : list string := ["Sunny"; "Cloudy"; "Storm"].

(** [hours = list(range(24))] (line 103). *)
Definition hours : list Z := range 24.

(** The [energy] list of [show_dashboard] (lines 104-107), as a function of
    [weather_state]. *)
Definition energy (weather_state : value) : list num :=
  if eq_str weather_state "Sunny" then
    map (fun x =>
           if x <? 12 then add (Int 50) (mul (Int x) (Int 2))
           else sub (Int 74) (mul (Int x) (Float 0.5)))
        hours
  else
    map (fun x => sub (Int 60) (mul (Int x) (Float 1.5))) hours.

(** The widget state a run of the script reads: the navigation radio (line
    357), the weather select box (line 79), the altitude slider (line 142),
    the wind select box (line 143) and the path button (line 146). *)
Record Session : Type := {
  navigate : string;
  simulate_weather : value;
  flight_altitude : Z;
  wind_direction : string;
  calculate_clicked : bool
}.

(** What [show_dashboard] computes from the session before it draws: the
    metrics triple (line 80) and the chart's x and y data (lines 103-107,
    handed to [px.area] at line 110). *)
Definition dashboard_data (s : Session)
  : (Z * string * string) * list Z * list num :=
  let weather_state := simulate_weather s in
  (get_weather_impact weather_state, hours, energy weather_state).

(** ** The specification's data model *)

Module Spec.

Inductive WeatherCondition : Type := Sunny | Cloudy | Storm.

Inductive OperatingMode : Type := Normal | ConservationMode | DeepSleep.

Record DerivedMetrics : Type := {
  batteryLevelPercent : Z;
  solarInputLabel : string;
  operatingMode : OperatingMode
}.

(** The lookup table of section 4.1, row by row. *)
Definition resolve (c : WeatherCondition) : DerivedMetrics :=
  match c with
  | Sunny => {| batteryLevelPercent := 94;
                solarInputLabel := "200Wh/day";
                operatingMode := Normal |}
  | Cloudy => {| batteryLevelPercent := 65;
                 solarInputLabel := "140Wh/day";
                 operatingMode := ConservationMode |}
  | Storm => {| batteryLevelPercent := 28;
                solarInputLabel := "10Wh/day";
                operatingMode := DeepSleep |}
  end.

End Spec.

(** How the program writes the specification's enumerations: a condition is
    the option string of the select box, a mode is the string the metric
    widget shows. *)
Definition condition_name (c : Spec.WeatherCondition) : string :=
  match c with
  | Spec.Sunny => "Sunny"
  | Spec.Cloudy => "Cloudy"
  | Spec.Storm => "Storm"
  end.

Definition mode_label (m : Spec.OperatingMode) : string :=
  match m with
  | Spec.Normal => "Normal"
  | Spec.ConservationMode => "Conservation Mode"
  | Spec.DeepSleep => "Deep Sleep"
  end.

Definition metrics_tuple (d : Spec.DerivedMetrics) : Z * string * string :=
  (Spec.batteryLevelPercent d, Spec.solarInputLabel d,
   mode_label (Spec.operatingMode d)).

(** A value is one of the three conditions when it is one of the option
    strings. *)
Definition is_condition (w : value) : Prop :=
  exists s, In s weather_options /\ w = VStr s.

(** [l[h]] denotes the rational [q]. *)
Definition sample_is (l : list num) (h : Z) (q : Q) : Prop :=
  exists v r, item l h = Some v /\ num_value v = Some r /\ (r == q)%Q.

(** [l[h]] denotes a rational between [lo] and [hi]. *)
Definition sample_within (l : list num) (h : Z) (lo hi : Q) : Prop :=
  exists v r, item l h = Some v /\ num_value v = Some r /\ (lo <= r <= hi)%Q.

(** The Python test [l[h] == n] evaluates to [True]. *)
Definition index_equals (l : list num) (h : Z) (n : num) : Prop :=
  exists v, item l h = Some v /\ num_eqb v n = true.

(** Executable forms of the three predicates above, for checking a whole
    list by evaluation. *)
Definition sample_isb (l : list num) (h : Z) (q : Q) : bool :=
  match item l h with
  | Some v =>
      match num_value v with
      | Some r => Qeq_bool r q
      | None => false
      end
  | None => false
  end.

Definition sample_withinb (l : list num) (h : Z) (lo hi : Q) : bool :=
  match item l h with
  | Some v =>
      match num_value v with
      | Some r => Qle_bool lo r && Qle_bool r hi
      | None => false
      end
  | None => false
  end.

Definition index_equalsb (l : list num) (h : Z) (n : num) : bool :=
  match item l h with
  | Some v => num_eqb v n
  | None => false
  end.

(** ** The rest of the script *)

(** [str(z)] for an [int], as an f-string field [{z}] prints it. *)
Definition py_str_int (z : Z) : string := NilZero.string_of_int (Z.to_int z).

(** One [st.metric(label, value, delta, help=...)] card. *)
Record Metric : Type := {
  metric_label : string;
  metric_value : string;
  metric_delta : string;
  metric_help : option string
}.

(** The four cards of the "System Status" row of [show_dashboard] (lines
    80-93), in the order they are drawn. *)
Definition dashboard_metrics (weather_state : value) : list Metric :=
  let '(batt_level, solar_input, mode) := get_weather_impact weather_state in
  [ {| metric_label := "Connectivity (TVWS)";
       metric_value := "Strong";
       metric_delta := "470 MHz";
       metric_help := Some "Using TV White Spaces for long range " |};
    {| metric_label := "Solar Battery";
       metric_value := py_str_int batt_level ++ "%";
       metric_delta := solar_input;
       metric_help := Some "Solar-powered edge devices" |};
    {| metric_label := "Active Sensors";
       metric_value := "12 / 100";
       metric_delta := "-88% count";
       metric_help := Some "80% fewer sensors needed due to AI Fusion" |};
    {| metric_label := "System Mode";
       metric_value := mode;
       metric_delta := "Active";
       metric_help := None |} ].

(** The page functions of the script. *)
Inductive page_function : Type :=
| show_dashboard
| show_field_map
| show_drone_planner
| show_analytics.

(** The options of the "Navigate" radio (line 357). *)
Definition navigate_options : list string :=
  ["Dashboard"; "Field Map"; "Drone Flight"; "Soil Analytics"].

(** Page routing (lines 366-374): an [if]/[elif] chain with no [else], so a
    value that matches no branch calls no page function. *)
Definition route (page : value) : option page_function :=
  if eq_str page "Dashboard" then Some show_dashboard
  else if eq_str page "Field Map" then Some show_field_map
  else if eq_str page "Drone Flight" then Some show_drone_planner
  else if eq_str page "Soil Analytics" then Some show_analytics
  else None.

(** The waypoints of [show_drone_planner] (lines 155-156). *)
Module DronePlanner.

Definition lat : list Z := [10; 10; 40; 40; 10; 10; 40; 40].
Definition lon : list Z := [10; 20; 20; 30; 30; 40; 40; 50].

End DronePlanner.

(** The traces of [show_field_map] (lines 226-327) and its axis range (lines
    333-334).  A trace keeps the data of one [go.Scatter]: coordinates, name
    and text; colours and line styles are left out. *)
Module FieldMap.

Record Trace : Type := {
  trace_x : list Z;
  trace_y : list Z;
  trace_name : option string;
  trace_text : list string
}.

Definition x1 : list Z := [10; 40; 60; 50; 20; 10].
Definition y1 : list Z := [60; 60; 80; 95; 95; 60].

Definition x2 : list Z := [65; 95; 90; 65; 60].
Definition y2 : list Z := [50; 55; 90; 80; 50].

Definition x3 : list Z := [10; 50; 95; 80; 15; 10].
Definition y3 : list Z := [10; 10; 45; 45; 40; 10].

Definition cx : list Z := [35; 75; 50].
Definition cy : list Z := [75; 70; 25].

(** The three field outlines, in the order they are added. *)
Definition fields : list Trace :=
  [ {| trace_x := x1; trace_y := y1;
       trace_name := Some "North Field"; trace_text := [] |};
    {| trace_x := x2; trace_y := y2;
       trace_name := Some "East Field"; trace_text := [] |};
    {| trace_x := x3; trace_y := y3;
       trace_name := Some "South Field"; trace_text := [] |} ].

Definition farm_road : Trace :=
  {| trace_x := [0; 100]; trace_y := [48; 48];
     trace_name := Some "Farm Road"; trace_text := [] |}.

Definition base_station : Trace :=
  {| trace_x := [55]; trace_y := [48];
     trace_name := None; trace_text := ["<b>Base Station</b>"] |}.

Definition labels : Trace :=
  {| trace_x := cx; trace_y := cy;
     trace_name := None;
     trace_text := ["<b>North Field</b>"; "<b>East Field</b>";
                    "<b>South Field</b>"] |}.

(** Every [fig.add_trace] of the page, in order. *)
Definition traces : list Trace :=
  fields ++ [farm_road; base_station; labels].

(** [range=[0, 100]] of both axes. *)
Definition axis_range : Z * Z := (0, 100).

End FieldMap.

(** [l1[h1] < l2[h2]] as Python compares the two numbers: by their exact
    values. *)
Definition sample_lt (l1 : list num) (h1 : Z) (l2 : list num) (h2 : Z)
  : Prop :=
  exists v1 v2 r1 r2,
    item l1 h1 = Some v1 /\ item l2 h2 = Some v2 /\
    num_value v1 = Some r1 /\ num_value v2 = Some r2 /\ (r1 < r2)%Q.

Definition sample_ltb (l1 : list num) (h1 : Z) (l2 : list num) (h2 : Z)
  : bool :=
  match item l1 h1, item l2 h2 with
  | Some v1, Some v2 =>
      match num_value v1, num_value v2 with
      | Some r1, Some r2 => negb (Qle_bool r2 r1)
      | _, _ => false
      end
  | _, _ => false
  end.

Definition is_int (n : num) : bool :=
  match n with Int _ => true | Float _ => false end.

Definition is_float (n : num) : bool :=
  match n with Int _ => false | Float _ => true end.

(** The three tuples [get_weather_impact] can return. *)
Definition sunny_row : Z * string * string := (94, "200Wh/day", "Normal").
Definition cloudy_row : Z * string * string :=
  (65, "140Wh/day", "Conservation Mode").
Definition storm_row : Z * string * string := (28, "10Wh/day", "Deep Sleep").

(** The smallest and the largest entry of a list of coordinates. *)
Definition lowest (l : list Z) : Z := fold_right Z.min (hd 0 l) l.
Definition highest (l : list Z) : Z := fold_right Z.max (hd 0 l) l.

(** The battery level of the "Solar Battery" card, as a one-entry series, to
    compare it with the entries of the chart. *)
Definition headline (weather_state : value) : list num :=
  [Int (fst (fst (get_weather_impact weather_state)))].

(** The number types of [l[h]]: is it an [int] exactly when [want_int]? *)
Definition number_typeb (l : list num) (h : Z) (want_int : bool) : bool :=
  match item l h with
  | Some v => Bool.eqb (is_int v) want_int && Bool.eqb (is_float v) (negb want_int)
  | None => false
  end.

(** The radio option each branch of the routing chain compares with. *)
Definition page_option (f : page_function) : string :=
  match f with
  | show_dashboard => "Dashboard"
  | show_field_map => "Field Map"
  | show_drone_planner => "Drone Flight"
  | show_analytics => "Soil Analytics"
  end.

(** Leg [i] of the drone path, from waypoint [i] to waypoint [i + 1]: the
    changes of longitude and latitude. *)
Definition leg (i : Z) : option (Z * Z) :=
  match item DronePlanner.lon i, item DronePlanner.lon (i + 1),
        item DronePlanner.lat i, item DronePlanner.lat (i + 1) with
  | Some x, Some x', Some y, Some y' => Some (x' - x, y' - y)
  | _, _, _, _ => None
  end.

(** ** Basic facts *)

Lemma condition_names : map condition_name [Spec.Sunny; Spec.Cloudy; Spec.Storm]
                        = weather_options.
Proof. reflexivity. Qed.

Lemma mode_label_inj (m n : Spec.OperatingMode) :
  mode_label m = mode_label n -> m = n.
Proof. destruct m, n; simpl; intros H; try reflexivity; discriminate H. Qed.

Lemma is_condition_cases (w : value) :
  is_condition w <-> w = VStr "Sunny" \/ w = VStr "Cloudy" \/ w = VStr "Storm".
Proof.
  unfold is_condition, weather_options; split.
  - intros (s & Hin & ->). simpl in Hin.
    destruct Hin as [<- | [<- | [<- | []]]]; auto.
  - intros [-> | [-> | ->]]; eexists; (split; [| reflexivity]); simpl; auto.
Qed.

Lemma eq_str_true (w : value) (lit : string) :
  eq_str w lit = true <-> w = VStr lit.
Proof.
  destruct w; simpl; try (split; [discriminate | intros H; discriminate H]).
  rewrite String.eqb_eq. split; [intros -> | intros [= ->]]; reflexivity.
Qed.

Lemma eq_str_false (w : value) (lit : string) :
  w <> VStr lit -> eq_str w lit = false.
Proof.
  intros H. destruct (eq_str w lit) eqn:E; [| reflexivity].
  apply eq_str_true in E. contradiction.
Qed.

(** Everything that is neither "Sunny" nor "Cloudy" falls into the [else]. *)
Lemma get_weather_impact_else (w : value) :
  w <> VStr "Sunny" -> w <> VStr "Cloudy" ->
  get_weather_impact w = (28, "10Wh/day", "Deep Sleep").
Proof.
  intros HS HC. unfold get_weather_impact.
  rewrite (eq_str_false _ _ HS), (eq_str_false _ _ HC). reflexivity.
Qed.

Lemma sample_isb_sound (l : list num) (h : Z) (q : Q) :
  sample_isb l h q = true -> sample_is l h q.
Proof.
  unfold sample_isb, sample_is. intros H.
  destruct (item l h) as [v |]; [| discriminate H].
  destruct (num_value v) as [r |] eqn:Hr; [| discriminate H].
  exists v, r. split; [reflexivity | split; [exact Hr |]].
  now apply Qeq_bool_iff.
Qed.

Lemma sample_withinb_sound (l : list num) (h : Z) (lo hi : Q) :
  sample_withinb l h lo hi = true -> sample_within l h lo hi.
Proof.
  unfold sample_withinb, sample_within. intros H.
  destruct (item l h) as [v |]; [| discriminate H].
  destruct (num_value v) as [r |] eqn:Hr; [| discriminate H].
  apply andb_true_iff in H. destruct H as [Hlo Hhi].
  exists v, r. split; [reflexivity | split; [exact Hr |]].
  split; now apply Qle_bool_iff.
Qed.

Lemma index_equalsb_sound (l : list num) (h : Z) (n : num) :
  index_equalsb l h n = true -> index_equals l h n.
Proof.
  unfold index_equalsb, index_equals. intros H.
  destruct (item l h) as [v |]; [| discriminate H].
  exists v. split; [reflexivity | exact H].
Qed.

(** The hour indices 0..23 are exactly the members of [hours], so a check
    that passes on every member of [hours] holds at every hour. *)
Lemma hours_spec (h : Z) : In h hours <-> 0 <= h <= 23.
Proof.
  unfold hours, range. rewrite in_map_iff. split.
  - intros (n & <- & Hn). apply in_seq in Hn. lia.
  - intros Hh. exists (Z.to_nat h). split; [lia |]. apply in_seq. lia.
Qed.

Lemma hours_forallb (p : Z -> bool) :
  forallb p hours = true -> forall h, 0 <= h <= 23 -> p h = true.
Proof.
  intros Hall h Hh. rewrite forallb_forall in Hall.
  apply Hall, hours_spec, Hh.
Qed.

Lemma energy_length (w : value) : List.length (energy w) = 24%nat.
Proof.
  unfold energy. destruct (eq_str w "Sunny"); now rewrite length_map.
Qed.

(** Only "Sunny" selects the first formula; every other value shares the
    second. *)
Lemma energy_else (w : value) :
  w <> VStr "Sunny" -> energy w = energy (VStr "Cloudy").
Proof.
  intros H. unfold energy. rewrite (eq_str_false _ _ H). reflexivity.
Qed.

(** ** The resolver *)

(** C1. For each of the three conditions, get_weather_impact returns exactly
    the row of the lookup table: Sunny gives (94, "200Wh/day", Normal),
    Cloudy gives (65, "140Wh/day", ConservationMode) and Storm gives
    (28, "10Wh/day", DeepSleep), every field compared by equality; the mode
    is returned as the string the program shows for it. *)
Theorem get_weather_impact_table :
  call_get_weather_impact (VStr "Sunny")
    = Returns (94, "200Wh/day", "Normal") /\
  call_get_weather_impact (VStr "Cloudy")
    = Returns (65, "140Wh/day", "Conservation Mode") /\
  call_get_weather_impact (VStr "Storm")
    = Returns (28, "10Wh/day", "Deep Sleep") /\
  (forall c : Spec.WeatherCondition,
      call_get_weather_impact (VStr (condition_name c))
        = Returns (metrics_tuple (Spec.resolve c))) /\
  (forall m n : Spec.OperatingMode, mode_label m = mode_label n -> m = n).
Proof.
  repeat split; try reflexivity.
  - intros c; destruct c; reflexivity.
  - exact mode_label_inj.
Qed.

(** C2, as the program has it. A value outside the three conditions does not
    raise: the call returns, and what it returns is the Storm row. *)
Theorem unknown_condition_returns_storm (w : value) (H : ~ is_condition w) :
  call_get_weather_impact w = Returns (28, "10Wh/day", "Deep Sleep") /\
  (forall exn, call_get_weather_impact w <> Raises exn).
Proof.
  split; [| intros exn; discriminate].
  unfold call_get_weather_impact. f_equal.
  apply get_weather_impact_else; intros ->; apply H, is_condition_cases; auto.
Qed.

Lemma unknown_condition_returns_storm_witness :
  ~ is_condition VNone /\
  call_get_weather_impact VNone = Returns (28, "10Wh/day", "Deep Sleep") /\
  (forall exn, call_get_weather_impact VNone <> Raises exn).
Proof.
  assert (H : ~ is_condition VNone).
  { intros (s & _ & E); discriminate E. }
  split; [exact H | exact (unknown_condition_returns_storm VNone H)].
Defined.

(** C2, as stated, fails: "Rain" is none of the three conditions, yet the
    call returns the Storm row instead of raising InvalidConditionError. *)
Lemma unknown_condition_does_not_raise :
  ~ is_condition (VStr "Rain") /\
  call_get_weather_impact (VStr "Rain")
    = Returns (28, "10Wh/day", "Deep Sleep") /\
  call_get_weather_impact (VStr "Rain") <> Raises "InvalidConditionError".
Proof.
  split; [| split; [reflexivity | discriminate]].
  rewrite is_condition_cases. intros [E | [E | E]]; discriminate E.
Qed.

(** C8. For each of the three conditions the battery level returned by
    get_weather_impact is an integer between 0 and 100. *)
Theorem battery_level_is_percentage (w : value) (H : is_condition w) :
  0 <= fst (fst (get_weather_impact w)) <= 100.
Proof.
  apply is_condition_cases in H.
  destruct H as [-> | [-> | ->]]; simpl; lia.
Qed.

Lemma battery_level_is_percentage_witness :
  is_condition (VStr "Cloudy") /\
  0 <= fst (fst (get_weather_impact (VStr "Cloudy"))) <= 100.
Proof.
  assert (H : is_condition (VStr "Cloudy")).
  { apply is_condition_cases; auto. }
  split; [exact H | exact (battery_level_is_percentage _ H)].
Defined.

(** C9. get_weather_impact is total: every call returns and none raises, and
    any input that is neither "Sunny" nor "Cloudy" gets the Storm tuple
    (28, "10Wh/day", "Deep Sleep") from the catch-all else branch. *)
Theorem get_weather_impact_total (w : value) :
  (exists t, call_get_weather_impact w = Returns t) /\
  (forall exn, call_get_weather_impact w <> Raises exn) /\
  (w <> VStr "Sunny" -> w <> VStr "Cloudy" ->
   call_get_weather_impact w = Returns (28, "10Wh/day", "Deep Sleep")).
Proof.
  split; [eexists; reflexivity |].
  split; [intros exn; discriminate |].
  intros HS HC. unfold call_get_weather_impact.
  now rewrite get_weather_impact_else.
Qed.

Lemma get_weather_impact_total_witness :
  call_get_weather_impact (VNum (Int 7))
    = Returns (28, "10Wh/day", "Deep Sleep").
Proof.
  apply (get_weather_impact_total (VNum (Int 7))); discriminate.
Defined.

(** ** The energy profile *)

(** C3. For Sunny the series is 50 + 2*h at every hour h < 12 and
    74 - 0.5*h at every hour 12 <= h <= 23; in particular the entries at
    hours 0, 11, 12 and 23 compare equal to 50, 72, 68 and 62.5. *)
Theorem sunny_energy_profile :
  (forall h, 0 <= h < 12 ->
     sample_is (energy (VStr "Sunny")) h (50 + 2 * inject_Z h)) /\
  (forall h, 12 <= h <= 23 ->
     sample_is (energy (VStr "Sunny")) h (74 - (1 # 2) * inject_Z h)) /\
  index_equals (energy (VStr "Sunny")) 0 (Int 50) /\
  index_equals (energy (VStr "Sunny")) 11 (Int 72) /\
  index_equals (energy (VStr "Sunny")) 12 (Int 68) /\
  index_equals (energy (VStr "Sunny")) 23 (Float 62.5).
Proof.
  assert (Hall : forallb
            (fun h => sample_isb (energy (VStr "Sunny")) h
                        (if h <? 12 then 50 + 2 * inject_Z h
                         else 74 - (1 # 2) * inject_Z h))
            hours = true) by (vm_compute; reflexivity).
  repeat match goal with |- _ /\ _ => split end.
  - intros h Hh. apply sample_isb_sound.
    pose proof (hours_forallb _ Hall h ltac:(lia)) as Hc. cbv beta in Hc.
    destruct (Z.ltb_spec h 12); [exact Hc | lia].
  - intros h Hh. apply sample_isb_sound.
    pose proof (hours_forallb _ Hall h ltac:(lia)) as Hc. cbv beta in Hc.
    destruct (Z.ltb_spec h 12); [lia | exact Hc].
  - apply index_equalsb_sound; vm_compute; reflexivity.
  - apply index_equalsb_sound; vm_compute; reflexivity.
  - apply index_equalsb_sound; vm_compute; reflexivity.
  - apply index_equalsb_sound; vm_compute; reflexivity.
Qed.

Lemma sunny_energy_profile_witness :
  sample_is (energy (VStr "Sunny")) 5 (50 + 2 * inject_Z 5) /\
  sample_is (energy (VStr "Sunny")) 17 (74 - (1 # 2) * inject_Z 17).
Proof.
  split.
  - apply (proj1 sunny_energy_profile 5); lia.
  - apply (proj1 (proj2 sunny_energy_profile) 17); lia.
Defined.

(** C4. For Cloudy, and for Storm which takes the same branch, the series is
    60 - 1.5*h at every hour 0 <= h <= 23; in particular the entries at hours
    0 and 23 compare equal to 60 and 25.5. *)
Theorem overcast_energy_profile (w : value)
        (Hw : w = VStr "Cloudy" \/ w = VStr "Storm") :
  (forall h, 0 <= h <= 23 ->
     sample_is (energy w) h (60 - (3 # 2) * inject_Z h)) /\
  index_equals (energy w) 0 (Int 60) /\
  index_equals (energy w) 23 (Float 25.5).
Proof.
  assert (Hall : forallb
            (fun h => sample_isb (energy (VStr "Cloudy")) h
                        (60 - (3 # 2) * inject_Z h))
            hours = true) by (vm_compute; reflexivity).
  assert (E : energy w = energy (VStr "Cloudy")).
  { destruct Hw as [-> | ->]; reflexivity. }
  rewrite E. split; [| split].
  - intros h Hh. apply sample_isb_sound.
    exact (hours_forallb _ Hall h Hh).
  - apply index_equalsb_sound; vm_compute; reflexivity.
  - apply index_equalsb_sound; vm_compute; reflexivity.
Qed.

Lemma overcast_energy_profile_witness :
  sample_is (energy (VStr "Storm")) 10 (60 - (3 # 2) * inject_Z 10) /\
  index_equals (energy (VStr "Cloudy")) 23 (Float 25.5).
Proof.
  split.
  - apply (proj1 (overcast_energy_profile (VStr "Storm") (or_intror eq_refl)) 10).
    lia.
  - apply (overcast_energy_profile (VStr "Cloudy") (or_introl eq_refl)).
Defined.

(** C5. The series for Storm is the series for Cloudy, entry by entry at
    every index, although get_weather_impact gives the two conditions
    different battery, solar and mode values. *)
Theorem storm_energy_is_cloudy_energy :
  energy (VStr "Storm") = energy (VStr "Cloudy") /\
  (forall h, item (energy (VStr "Storm")) h = item (energy (VStr "Cloudy")) h) /\
  get_weather_impact (VStr "Storm") <> get_weather_impact (VStr "Cloudy").
Proof.
  assert (E : energy (VStr "Storm") = energy (VStr "Cloudy")).
  { apply energy_else. discriminate. }
  split; [exact E | split].
  - intros h. now rewrite E.
  - discriminate.
Qed.

(** C6. For each of the three conditions the series has exactly 24 entries,
    one for each hour index 0..23 of [hours]. *)
Theorem energy_has_24_samples (w : value) (H : is_condition w) :
  List.length (energy w) = 24%nat /\
  List.length (energy w) = List.length hours /\
  hours = [0; 1; 2; 3; 4; 5; 6; 7; 8; 9; 10; 11; 12; 13; 14; 15; 16; 17; 18;
           19; 20; 21; 22; 23] /\
  (forall h, 0 <= h <= 23 -> exists v, item (energy w) h = Some v) /\
  item (energy w) 24 = None.
Proof.
  pose proof (energy_length w) as L.
  split; [exact L | split; [rewrite L; reflexivity | split; [reflexivity |]]].
  unfold item. rewrite L. split.
  - intros h Hh.
    replace ((0 <=? h) && (h <? Z.of_nat 24)) with true
      by (symmetry; apply andb_true_iff; split;
          [apply Z.leb_le | apply Z.ltb_lt]; lia).
    destruct (nth_error (energy w) (Z.to_nat h)) as [v |] eqn:E.
    + exists v; reflexivity.
    + apply nth_error_None in E. lia.
  - reflexivity.
Qed.

Lemma energy_has_24_samples_witness :
  is_condition (VStr "Storm") /\
  List.length (energy (VStr "Storm")) = 24%nat.
Proof.
  assert (H : is_condition (VStr "Storm")).
  { apply is_condition_cases; auto. }
  split; [exact H | exact (proj1 (energy_has_24_samples _ H))].
Defined.

(** C7. The metrics and the series are functions of the condition alone: two
    runs that read the same condition produce identical results, whatever
    else differs between the two sessions. *)
Theorem two_run_equality (s1 s2 : Session)
        (H : simulate_weather s1 = simulate_weather s2) :
  call_get_weather_impact (simulate_weather s1)
    = call_get_weather_impact (simulate_weather s2) /\
  energy (simulate_weather s1) = energy (simulate_weather s2) /\
  dashboard_data s1 = dashboard_data s2.
Proof.
  unfold dashboard_data. rewrite H. repeat split.
Qed.

Lemma two_run_equality_witness :
  dashboard_data
    {| navigate := "Dashboard"; simulate_weather := VStr "Cloudy";
       flight_altitude := 30; wind_direction := "North";
       calculate_clicked := false |}
  = dashboard_data
      {| navigate := "Drone Flight"; simulate_weather := VStr "Cloudy";
         flight_altitude := 50; wind_direction := "West";
         calculate_clicked := true |}.
Proof.
  apply two_run_equality. reflexivity.
Defined.

(** C10. For each of the three conditions and every hour 0 <= h <= 23 the
    series value lies between 25.5 and 72, hence between 0 and 100, with no
    clamping in the code. *)
Theorem energy_within_battery_bounds (w : value) (h : Z)
        (Hw : is_condition w) (Hh : 0 <= h <= 23) :
  sample_within (energy w) h (51 # 2) 72 /\
  sample_within (energy w) h 0 100.
Proof.
  assert (Hall : forall s, In s weather_options ->
            forallb (fun h => sample_withinb (energy (VStr s)) h (51 # 2) 72
                              && sample_withinb (energy (VStr s)) h 0 100)
                    hours = true).
  { intros s Hs. simpl in Hs.
    destruct Hs as [<- | [<- | [<- | []]]]; vm_compute; reflexivity. }
  destruct Hw as (s & Hs & ->).
  pose proof (hours_forallb _ (Hall s Hs) h Hh) as Hc. cbv beta in Hc.
  apply andb_true_iff in Hc. destruct Hc as [H1 H2].
  split; apply sample_withinb_sound; assumption.
Qed.

Lemma energy_within_battery_bounds_witness :
  sample_within (energy (VStr "Sunny")) 11 (51 # 2) 72 /\
  sample_within (energy (VStr "Sunny")) 11 0 100.
Proof.
  apply energy_within_battery_bounds.
  - apply is_condition_cases; auto.
  - lia.
Defined.

(** ** Further properties of the resolver *)

Lemma sample_ltb_sound (l1 l2 : list num) (h1 h2 : Z) :
  sample_ltb l1 h1 l2 h2 = true -> sample_lt l1 h1 l2 h2.
Proof.
  unfold sample_ltb, sample_lt. intros H.
  destruct (item l1 h1) as [v1 |]; [| discriminate H].
  destruct (item l2 h2) as [v2 |]; [| discriminate H].
  destruct (num_value v1) as [r1 |] eqn:E1; [| discriminate H].
  destruct (num_value v2) as [r2 |] eqn:E2; [| discriminate H].
  exists v1, v2, r1, r2. repeat (split; [first [reflexivity | assumption] |]).
  apply Qnot_le_lt. intros Hle. apply Qle_bool_iff in Hle.
  rewrite Hle in H. discriminate H.
Qed.

Lemma get_weather_impact_sunny (w : value) :
  get_weather_impact w = sunny_row <-> w = VStr "Sunny".
Proof.
  unfold get_weather_impact, sunny_row. split.
  - destruct (eq_str w "Sunny") eqn:E; [intros _; now apply eq_str_true |].
    destruct (eq_str w "Cloudy"); discriminate.
  - intros ->. reflexivity.
Qed.

Lemma get_weather_impact_cloudy (w : value) :
  get_weather_impact w = cloudy_row <-> w = VStr "Cloudy".
Proof.
  unfold get_weather_impact, cloudy_row. split.
  - destruct (eq_str w "Sunny"); [discriminate |].
    destruct (eq_str w "Cloudy") eqn:E; [intros _; now apply eq_str_true |].
    discriminate.
  - intros ->. reflexivity.
Qed.

(** X1. Whatever it is given, get_weather_impact returns one of exactly three
    tuples, so the battery level it reports always lies between 28 and 94. *)
Theorem get_weather_impact_image (w : value) :
  (get_weather_impact w = sunny_row \/
   get_weather_impact w = cloudy_row \/
   get_weather_impact w = storm_row) /\
  28 <= fst (fst (get_weather_impact w)) <= 94.
Proof.
  unfold get_weather_impact.
  destruct (eq_str w "Sunny"); [| destruct (eq_str w "Cloudy")];
    (split; [auto | simpl; lia]).
Qed.

(** X2. The comparison is exact: the Sunny tuple comes back only for the
    string "Sunny" and the Cloudy tuple only for the string "Cloudy"; every
    other value, different spellings and non-strings included, gets the Storm
    tuple. *)
Theorem get_weather_impact_exact_match (w : value) :
  (get_weather_impact w = sunny_row <-> w = VStr "Sunny") /\
  (get_weather_impact w = cloudy_row <-> w = VStr "Cloudy") /\
  (get_weather_impact w = storm_row <->
   w <> VStr "Sunny" /\ w <> VStr "Cloudy").
Proof.
  split; [apply get_weather_impact_sunny |].
  split; [apply get_weather_impact_cloudy |].
  split.
  - intros H. split; intros ->; discriminate H.
  - intros [HS HC]. now apply get_weather_impact_else.
Qed.

Lemma get_weather_impact_exact_match_witness :
  get_weather_impact (VStr "sunny") = storm_row /\
  get_weather_impact (VStr "Cloudy ") = storm_row.
Proof.
  split.
  - apply (proj2 (proj2 (get_weather_impact_exact_match (VStr "sunny")))).
    split; discriminate.
  - apply (proj2 (proj2 (get_weather_impact_exact_match (VStr "Cloudy ")))).
    split; discriminate.
Defined.

(** X3. On the three conditions each field alone tells the condition: two
    conditions that agree on the battery level, on the solar label or on the
    mode are the same condition. *)
Theorem metrics_field_determines_condition (w1 w2 : value)
        (H1 : is_condition w1) (H2 : is_condition w2)
        (E : fst (fst (get_weather_impact w1))
               = fst (fst (get_weather_impact w2)) \/
             snd (fst (get_weather_impact w1))
               = snd (fst (get_weather_impact w2)) \/
             snd (get_weather_impact w1) = snd (get_weather_impact w2)) :
  w1 = w2.
Proof.
  apply is_condition_cases in H1. apply is_condition_cases in H2.
  destruct H1 as [-> | [-> | ->]], H2 as [-> | [-> | ->]];
    try reflexivity;
    destruct E as [E | [E | E]]; discriminate E.
Qed.

Lemma metrics_field_determines_condition_witness :
  VStr "Storm" = VStr "Storm".
Proof.
  apply metrics_field_determines_condition.
  - apply is_condition_cases; auto.
  - apply is_condition_cases; auto.
  - right; right; reflexivity.
Defined.

(** ** Further properties of the energy profile *)

Lemma overcast_formula (h : Z) :
  0 <= h <= 23 ->
  sample_is (energy (VStr "Cloudy")) h (60 - (3 # 2) * inject_Z h).
Proof.
  intros Hh. apply sample_isb_sound.
  refine (hours_forallb
            (fun h => sample_isb (energy (VStr "Cloudy")) h
                        (60 - (3 # 2) * inject_Z h)) _ h Hh).
  vm_compute; reflexivity.
Qed.

Lemma eq_str_sunny_dec (w : value) : w = VStr "Sunny" \/ w <> VStr "Sunny".
Proof.
  destruct (eq_str w "Sunny") eqn:E.
  - left. now apply eq_str_true.
  - right. intros ->. discriminate E.
Qed.

(** X4. Only the string "Sunny" selects the first formula.  Any other value,
    an unknown string or a non-string included, raises nothing and gets the
    series of Cloudy, 60 - 1.5*h at every hour. *)
Theorem energy_fallback (w : value) (H : w <> VStr "Sunny") :
  energy w = energy (VStr "Cloudy") /\
  (forall h, 0 <= h <= 23 ->
     sample_is (energy w) h (60 - (3 # 2) * inject_Z h)).
Proof.
  pose proof (energy_else w H) as E. split; [exact E |].
  rewrite E. exact overcast_formula.
Qed.

Lemma energy_fallback_witness :
  energy (VStr "Rain") = energy (VStr "Cloudy") /\
  energy VNone = energy (VStr "Cloudy").
Proof.
  split.
  - apply (energy_fallback (VStr "Rain")). discriminate.
  - apply (energy_fallback VNone). discriminate.
Defined.

(** X5. The series mixes number types: for Sunny the entries of hours 0..11
    are Python ints and those of hours 12..23 are floats; for every other
    input all 24 entries are floats. *)
Theorem energy_number_types (w : value) (h : Z) (Hh : 0 <= h <= 23) :
  exists v, item (energy w) h = Some v /\
            (is_int v = true <-> w = VStr "Sunny" /\ h < 12) /\
            (is_float v = true <-> w <> VStr "Sunny" \/ 12 <= h).
Proof.
  assert (HS : forallb (fun h => number_typeb (energy (VStr "Sunny")) h (h <? 12))
                       hours = true) by (vm_compute; reflexivity).
  assert (HC : forallb (fun h => number_typeb (energy (VStr "Cloudy")) h false)
                       hours = true) by (vm_compute; reflexivity).
  destruct (eq_str_sunny_dec w) as [-> | Hw].
  - pose proof (hours_forallb _ HS h Hh) as Hc. cbv beta in Hc.
    unfold number_typeb in Hc.
    destruct (item (energy (VStr "Sunny")) h) as [v |]; [| discriminate Hc].
    exists v. split; [reflexivity |].
    apply andb_true_iff in Hc. destruct Hc as [Hi Hf].
    apply Bool.eqb_prop in Hi. apply Bool.eqb_prop in Hf.
    rewrite Hi, Hf. destruct (Z.ltb_spec h 12); simpl; split; split;
      try tauto; try lia; try discriminate;
      intros [? | ?]; try lia; try contradiction; try reflexivity.
  - rewrite (energy_else w Hw).
    pose proof (hours_forallb _ HC h Hh) as Hc. cbv beta in Hc.
    unfold number_typeb in Hc.
    destruct (item (energy (VStr "Cloudy")) h) as [v |]; [| discriminate Hc].
    exists v. split; [reflexivity |].
    apply andb_true_iff in Hc. destruct Hc as [Hi Hf].
    apply Bool.eqb_prop in Hi. apply Bool.eqb_prop in Hf.
    rewrite Hi, Hf. simpl. split; split; try tauto; try discriminate.
Qed.

Lemma energy_number_types_witness :
  exists v, item (energy (VStr "Sunny")) 12 = Some v /\
            (is_int v = true <-> VStr "Sunny" = VStr "Sunny" /\ 12 < 12) /\
            (is_float v = true <-> VStr "Sunny" <> VStr "Sunny" \/ 12 <= 12).
Proof.
  apply energy_number_types. lia.
Defined.

(** X6. The Sunny series rises strictly from hour 0 to hour 11, drops between
    hour 11 and hour 12, and falls strictly from hour 12 to hour 23.  Its
    largest entry is the one of hour 11 and its smallest the one of hour 0. *)
Theorem sunny_energy_shape :
  (forall h, 0 <= h < 11 ->
     sample_lt (energy (VStr "Sunny")) h (energy (VStr "Sunny")) (h + 1)) /\
  sample_lt (energy (VStr "Sunny")) 12 (energy (VStr "Sunny")) 11 /\
  (forall h, 12 <= h < 23 ->
     sample_lt (energy (VStr "Sunny")) (h + 1) (energy (VStr "Sunny")) h) /\
  (forall h, 0 <= h <= 23 -> h <> 11 ->
     sample_lt (energy (VStr "Sunny")) h (energy (VStr "Sunny")) 11) /\
  (forall h, 0 <= h <= 23 -> h <> 0 ->
     sample_lt (energy (VStr "Sunny")) 0 (energy (VStr "Sunny")) h).
Proof.
  set (S := energy (VStr "Sunny")).
  assert (Hall : forallb
            (fun h =>
               (if h <? 11 then sample_ltb S h S (h + 1) else true)
               && (if (12 <=? h) && (h <? 23) then sample_ltb S (h + 1) S h
                   else true)
               && (if h =? 11 then true else sample_ltb S h S 11)
               && (if h =? 0 then true else sample_ltb S 0 S h))
            hours = true) by (vm_compute; reflexivity).
  assert (Hat : forall h, 0 <= h <= 23 ->
            (if h <? 11 then sample_ltb S h S (h + 1) else true) = true /\
            (if (12 <=? h) && (h <? 23) then sample_ltb S (h + 1) S h
             else true) = true /\
            (if h =? 11 then true else sample_ltb S h S 11) = true /\
            (if h =? 0 then true else sample_ltb S 0 S h) = true).
  { intros h Hh. pose proof (hours_forallb _ Hall h Hh) as Hc.
    cbv beta in Hc. repeat (apply andb_true_iff in Hc; destruct Hc as [Hc ?]).
    auto. }
  repeat match goal with |- _ /\ _ => split end.
  - intros h Hh. apply sample_ltb_sound.
    destruct (Hat h ltac:(lia)) as (H1 & _).
    destruct (Z.ltb_spec h 11); [exact H1 | lia].
  - apply sample_ltb_sound. vm_compute; reflexivity.
  - intros h Hh. apply sample_ltb_sound.
    destruct (Hat h ltac:(lia)) as (_ & H2 & _).
    destruct (Z.leb_spec 12 h); [| lia].
    destruct (Z.ltb_spec h 23); [exact H2 | lia].
  - intros h Hh Hne. apply sample_ltb_sound.
    destruct (Hat h Hh) as (_ & _ & H3 & _).
    destruct (Z.eqb_spec h 11); [contradiction | exact H3].
  - intros h Hh Hne. apply sample_ltb_sound.
    destruct (Hat h Hh) as (_ & _ & _ & H4).
    destruct (Z.eqb_spec h 0); [contradiction | exact H4].
Qed.

Lemma sunny_energy_shape_witness :
  sample_lt (energy (VStr "Sunny")) 4 (energy (VStr "Sunny")) (4 + 1) /\
  sample_lt (energy (VStr "Sunny")) (20 + 1) (energy (VStr "Sunny")) 20.
Proof.
  split.
  - apply (proj1 sunny_energy_shape 4). lia.
  - apply (proj1 (proj2 (proj2 sunny_energy_shape)) 20). lia.
Defined.

(** X7. For every input other than "Sunny" the series falls strictly from one
    hour to the next, so its largest entry is the first and its smallest the
    last. *)
Theorem overcast_energy_decreasing (w : value) (h : Z)
        (Hw : w <> VStr "Sunny") (Hh : 0 <= h < 23) :
  sample_lt (energy w) (h + 1) (energy w) h.
Proof.
  rewrite (energy_else w Hw). apply sample_ltb_sound.
  assert (Hall : forallb
            (fun h => if h <? 23
                      then sample_ltb (energy (VStr "Cloudy")) (h + 1)
                                      (energy (VStr "Cloudy")) h
                      else true)
            hours = true) by (vm_compute; reflexivity).
  pose proof (hours_forallb _ Hall h ltac:(lia)) as Hc. cbv beta in Hc.
  destruct (Z.ltb_spec h 23); [exact Hc | lia].
Qed.

Lemma overcast_energy_decreasing_witness :
  sample_lt (energy (VStr "Storm")) (22 + 1) (energy (VStr "Storm")) 22.
Proof.
  apply overcast_energy_decreasing; [discriminate | lia].
Defined.

(** X8. The two curves cross once: at hours 0, 1 and 2 the Sunny entry is
    below the entry every other input gets, and from hour 3 on it is above
    it. *)
Theorem sunny_overcast_crossover (w : value) (h : Z)
        (Hw : w <> VStr "Sunny") (Hh : 0 <= h <= 23) :
  (h <= 2 -> sample_lt (energy (VStr "Sunny")) h (energy w) h) /\
  (3 <= h -> sample_lt (energy w) h (energy (VStr "Sunny")) h).
Proof.
  rewrite (energy_else w Hw).
  assert (Hall : forallb
            (fun h => if h <=? 2
                      then sample_ltb (energy (VStr "Sunny")) h
                                      (energy (VStr "Cloudy")) h
                      else sample_ltb (energy (VStr "Cloudy")) h
                                      (energy (VStr "Sunny")) h)
            hours = true) by (vm_compute; reflexivity).
  pose proof (hours_forallb _ Hall h Hh) as Hc. cbv beta in Hc.
  destruct (Z.leb_spec h 2); split; intros; try lia;
    apply sample_ltb_sound; exact Hc.
Qed.

Lemma sunny_overcast_crossover_witness :
  sample_lt (energy (VStr "Sunny")) 2 (energy (VStr "Cloudy")) 2.
Proof.
  assert (Hw : VStr "Cloudy" <> VStr "Sunny") by discriminate.
  assert (Hh : 0 <= 2 <= 23) by lia.
  apply (proj1 (sunny_overcast_crossover (VStr "Cloudy") 2 Hw Hh)). lia.
Defined.

(** X9. The battery level on the "Solar Battery" card is never a point of
    the chart below it.  For Sunny and Cloudy it is above every entry of the
    series; for every other input it is below the entries of hours 0..21 and
    above those of hours 22 and 23. *)
Theorem headline_battery_off_chart (w : value) (h : Z) (Hh : 0 <= h <= 23) :
  (w = VStr "Sunny" \/ w = VStr "Cloudy" ->
   sample_lt (energy w) h (headline w) 0) /\
  (w <> VStr "Sunny" -> w <> VStr "Cloudy" ->
   (h <= 21 -> sample_lt (headline w) 0 (energy w) h) /\
   (22 <= h -> sample_lt (energy w) h (headline w) 0)).
Proof.
  assert (HA : forall s, s = "Sunny" \/ s = "Cloudy" ->
            forallb (fun h => sample_ltb (energy (VStr s)) h
                                         (headline (VStr s)) 0)
                    hours = true).
  { intros s [-> | ->]; vm_compute; reflexivity. }
  assert (HB : forallb
            (fun h => if h <=? 21
                      then sample_ltb (headline (VStr "Storm")) 0
                                      (energy (VStr "Storm")) h
                      else sample_ltb (energy (VStr "Storm")) h
                                      (headline (VStr "Storm")) 0)
            hours = true) by (vm_compute; reflexivity).
  split.
  - intros Hw. apply sample_ltb_sound.
    destruct Hw as [-> | ->];
      refine (hours_forallb _ (HA _ _) h Hh); auto.
  - intros HS HC.
    assert (E : energy w = energy (VStr "Storm")).
    { rewrite (energy_else w HS). symmetry. apply energy_else. discriminate. }
    assert (G : headline w = headline (VStr "Storm")).
    { unfold headline. now rewrite (get_weather_impact_else w HS HC). }
    rewrite E, G.
    pose proof (hours_forallb _ HB h Hh) as Hc. cbv beta in Hc.
    destruct (Z.leb_spec h 21); split; intros; try lia;
      apply sample_ltb_sound; exact Hc.
Qed.

Lemma headline_battery_off_chart_witness :
  sample_lt (energy (VStr "Sunny")) 11 (headline (VStr "Sunny")) 0.
Proof.
  assert (Hh : 0 <= 11 <= 23) by lia.
  apply (proj1 (headline_battery_off_chart (VStr "Sunny") 11 Hh)). auto.
Defined.

(** ** Page routing *)

Lemma route_some (v : value) (f : page_function) :
  route v = Some f <-> v = VStr (page_option f).
Proof.
  unfold route. split.
  - destruct (eq_str v "Dashboard") eqn:E1;
      [apply eq_str_true in E1; intros [= <-]; exact E1 |].
    destruct (eq_str v "Field Map") eqn:E2;
      [apply eq_str_true in E2; intros [= <-]; exact E2 |].
    destruct (eq_str v "Drone Flight") eqn:E3;
      [apply eq_str_true in E3; intros [= <-]; exact E3 |].
    destruct (eq_str v "Soil Analytics") eqn:E4;
      [apply eq_str_true in E4; intros [= <-]; exact E4 |].
    discriminate.
  - intros ->. destruct f; reflexivity.
Qed.

Lemma page_option_in (f : page_function) : In (page_option f) navigate_options.
Proof. destruct f; simpl; auto. Qed.

(** X10. A page is drawn exactly for the four options of the "Navigate"
    radio: each option reaches a page function, each page function is
    reached from an option, and any other value, for which the chain has no
    else branch, draws no page at all. *)
Theorem route_covers_options :
  (forall v, route v <> None <->
             exists s, In s navigate_options /\ v = VStr s) /\
  (forall f, exists s, In s navigate_options /\ route (VStr s) = Some f).
Proof.
  split.
  - intros v. split.
    + destruct (route v) as [f |] eqn:E; [intros _ | intros H; now elim H].
      apply route_some in E. exists (page_option f).
      split; [apply page_option_in | exact E].
    + intros (s & Hin & ->). simpl in Hin.
      destruct Hin as [<- | [<- | [<- | [<- | []]]]]; discriminate.
  - intros f. exists (page_option f).
    split; [apply page_option_in | now apply route_some].
Qed.

Lemma route_covers_options_witness :
  route (VStr "Settings") = None /\ route VNone = None.
Proof.
  split.
  - destruct (route (VStr "Settings")) eqn:E; [| reflexivity].
    assert (H : route (VStr "Settings") <> None) by (rewrite E; discriminate).
    apply (proj1 route_covers_options) in H.
    destruct H as (s & Hin & Hs). simpl in Hin.
    destruct Hin as [<- | [<- | [<- | [<- | []]]]]; discriminate Hs.
  - destruct (route VNone) eqn:E; [| reflexivity].
    assert (H : route VNone <> None) by (rewrite E; discriminate).
    apply (proj1 route_covers_options) in H.
    destruct H as (s & _ & Hs). discriminate Hs.
Defined.

(** X11. No two values share a page: if two values are routed to the same
    page function they are the same value. *)
Theorem route_injective (v1 v2 : value) (f : page_function)
        (H1 : route v1 = Some f) (H2 : route v2 = Some f) :
  v1 = v2.
Proof.
  apply route_some in H1. apply route_some in H2. congruence.
Qed.

Lemma route_injective_witness :
  VStr "Field Map" = VStr "Field Map".
Proof.
  apply (route_injective _ _ show_field_map); reflexivity.
Defined.

(** ** The status cards *)

(** X12. Whatever the weather input, the status row has the same four cards
    in the same order, the "Connectivity (TVWS)" and "Active Sensors" cards
    are unchanged, and the "Solar Battery" and "System Mode" cards show one
    consistent row: "94%" with "200Wh/day" and "Normal", "65%" with
    "140Wh/day" and "Conservation Mode", or "28%" with "10Wh/day" and
    "Deep Sleep". *)
Theorem dashboard_metrics_rows (w : value) :
  map metric_label (dashboard_metrics w)
    = ["Connectivity (TVWS)"; "Solar Battery"; "Active Sensors";
       "System Mode"] /\
  nth_error (dashboard_metrics w) 0
    = nth_error (dashboard_metrics (VStr "Sunny")) 0 /\
  nth_error (dashboard_metrics w) 2
    = nth_error (dashboard_metrics (VStr "Sunny")) 2 /\
  exists battery mode,
    nth_error (dashboard_metrics w) 1 = Some battery /\
    nth_error (dashboard_metrics w) 3 = Some mode /\
    In (metric_value battery, metric_delta battery, metric_value mode)
       [("94%", "200Wh/day", "Normal");
        ("65%", "140Wh/day", "Conservation Mode");
        ("28%", "10Wh/day", "Deep Sleep")].
Proof.
  unfold dashboard_metrics.
  destruct (get_weather_impact_image w) as [[E | [E | E]] _]; rewrite E;
    (split; [reflexivity |]); (split; [reflexivity |]);
    (split; [reflexivity |]);
    eexists; eexists; (split; [reflexivity |]); (split; [reflexivity |]);
    simpl; auto.
Qed.

(** ** The drone path *)

(** X13. The waypoints form a zig-zag: there are as many latitudes as
    longitudes, every even leg moves 10 along the longitude and keeps the
    latitude, and every odd leg keeps the longitude and moves 30 along the
    latitude, up and down in turn. *)
Theorem drone_path_zigzag (i : Z) (Hi : 0 <= i <= 6) :
  List.length DronePlanner.lat = List.length DronePlanner.lon /\
  (Z.even i = true -> leg i = Some (10, 0)) /\
  (Z.odd i = true ->
   leg i = Some (0, if i mod 4 =? 1 then 30 else - 30)).
Proof.
  split; [reflexivity |].
  assert (C : i = 0 \/ i = 1 \/ i = 2 \/ i = 3 \/ i = 4 \/ i = 5 \/ i = 6)
    by lia.
  destruct C as [-> | [-> | [-> | [-> | [-> | [-> | ->]]]]]];
    split; intros H; first [discriminate H | reflexivity].
Qed.

Lemma drone_path_zigzag_witness :
  leg 3 = Some (0, - 30) /\ leg 4 = Some (10, 0).
Proof.
  split.
  - assert (H3 : 0 <= 3 <= 6) by lia.
    apply (proj2 (proj2 (drone_path_zigzag 3 H3))). reflexivity.
  - assert (H4 : 0 <= 4 <= 6) by lia.
    apply (proj1 (proj2 (drone_path_zigzag 4 H4))). reflexivity.
Defined.

(** ** The field map *)

(** X14. Every trace of the field map has as many x as y coordinates, and
    every coordinate lies within the axis range 0..100, so nothing is drawn
    outside the visible area. *)
Theorem field_map_within_axes (t : FieldMap.Trace) (H : In t FieldMap.traces) :
  List.length (FieldMap.trace_x t) = List.length (FieldMap.trace_y t) /\
  (forall c, In c (FieldMap.trace_x t ++ FieldMap.trace_y t) ->
             fst FieldMap.axis_range <= c <= snd FieldMap.axis_range).
Proof.
  assert (Hall : forallb
            (fun t => Nat.eqb (List.length (FieldMap.trace_x t))
                              (List.length (FieldMap.trace_y t))
                      && forallb (fun c => (fst FieldMap.axis_range <=? c)
                                           && (c <=? snd FieldMap.axis_range))
                                 (FieldMap.trace_x t ++ FieldMap.trace_y t))
            FieldMap.traces = true) by (vm_compute; reflexivity).
  rewrite forallb_forall in Hall. specialize (Hall t H).
  apply andb_true_iff in Hall. destruct Hall as [HL HC].
  split; [now apply Nat.eqb_eq |].
  intros c Hc. rewrite forallb_forall in HC. specialize (HC c Hc).
  apply andb_true_iff in HC. destruct HC as [H1 H2].
  apply Z.leb_le in H1. apply Z.leb_le in H2. lia.
Qed.

Lemma field_map_within_axes_witness :
  List.length (FieldMap.trace_x FieldMap.farm_road)
    = List.length (FieldMap.trace_y FieldMap.farm_road).
Proof.
  apply (field_map_within_axes FieldMap.farm_road).
  simpl. auto.
Defined.

(** X15. The labels go with the fields: for each of the three fields, the
    label at the same position carries the field's name in bold, and its
    point lies within the bounding box of the field's outline. *)
Theorem field_labels_match_fields (i : Z) (Hi : 0 <= i <= 2) :
  exists t name lx ly txt,
    item FieldMap.fields i = Some t /\
    FieldMap.trace_name t = Some name /\
    item FieldMap.cx i = Some lx /\
    item FieldMap.cy i = Some ly /\
    item (FieldMap.trace_text FieldMap.labels) i = Some txt /\
    txt = "<b>" ++ name ++ "</b>" /\
    lowest (FieldMap.trace_x t) <= lx <= highest (FieldMap.trace_x t) /\
    lowest (FieldMap.trace_y t) <= ly <= highest (FieldMap.trace_y t).
Proof.
  assert (C : i = 0 \/ i = 1 \/ i = 2) by lia.
  destruct C as [-> | [-> | ->]];
    do 5 eexists;
    repeat (split; [reflexivity |]);
    split; split; apply Z.leb_le; reflexivity.
Qed.

Lemma field_labels_match_fields_witness :
  exists t name lx ly txt,
    item FieldMap.fields 1 = Some t /\
    FieldMap.trace_name t = Some name /\
    item FieldMap.cx 1 = Some lx /\
    item FieldMap.cy 1 = Some ly /\
    item (FieldMap.trace_text FieldMap.labels) 1 = Some txt /\
    txt = "<b>" ++ name ++ "</b>" /\
    lowest (FieldMap.trace_x t) <= lx <= highest (FieldMap.trace_x t) /\
    lowest (FieldMap.trace_y t) <= ly <= highest (FieldMap.trace_y t).
Proof.
  apply field_labels_match_fields. lia.
Defined.
